(** * NetworkController of the StarMask extension

    A shallow embedding of [app/scripts/controllers/network/network.js]:
    the controller that owns the provider configuration, swaps the live
    connection behind two stable proxies and probes the endpoint with
    [chain.id] after every switch.

    The controller is a JavaScript object whose methods mutate its fields and
    may throw.  It is embedded as a record of those fields, threaded through a
    state-and-exception monad.  What lives outside the class but is touched by
    it (the listener table of [EventEmitter], the targets of the swappable
    proxies, the callbacks handed to [sendAsync] and not yet called) is part
    of the same record. *)

From Stdlib Require Import ZArith Ascii String.
From stdpp Require Import base option list strings gmap pretty.

(** ** JavaScript values *)

(** The values that the controller stores, compares and passes on.  Objects
    are references: two objects are equal when they are the same object. *)
Inductive JsValue : Type :=
  | JsUndefined
  | JsNull
  | JsBool (b : bool)
  | JsNumber (n : Z)
  | JsString (s : string)
  | JsObject (ref : nat).

Global Instance JsValue_eq_dec : EqDecision JsValue.
Proof. solve_decision. Defined.

(** [a === b]. *)
Definition strictEquals (a b : JsValue) : bool := bool_decide (a = b).

(** [!!v], the test made by [if (v)], [!v] and [v || w]. *)
Definition truthy (v : JsValue) : bool :=
  match v with
  | JsUndefined | JsNull => false
  | JsBool b => b
  | JsNumber n => negb (n =? 0)%Z
  | JsString s => negb (bool_decide (s = EmptyString))
  | JsObject _ => true
  end.

(** [a || b]. *)
Definition jsOr (a b : JsValue) : JsValue := if truthy a then a else b.

(** [String(v)], as used by template literals, property keys and [parseInt]. *)
Definition ToString (v : JsValue) : string :=
  match v with
  | JsUndefined => "undefined"
  | JsNull => "null"
  | JsBool true => "true"
  | JsBool false => "false"
  | JsNumber n => pretty n
  | JsString s => s
  | JsObject _ => "[object Object]"
  end.

(** A plain object used as a record: own keys and their values.  A key whose
    value is [undefined] is still a key. *)
Abbreviation JsRecord := (gmap string JsValue).

(** [o.k] and the destructuring [{ k } = o]: a missing key reads [undefined]. *)
Definition field (k : string) (o : JsRecord) : JsValue :=
  default JsUndefined (o !! k).

(** [{ ...a, ...b }]: the keys of both, [b] winning on the common ones. *)
Definition spread (a b : JsRecord) : JsRecord := b ∪ a.

(** [arr.includes(v)] on an array of strings. *)
Definition includes (arr : list string) (v : JsValue) : bool :=
  match v with
  | JsString s => bool_decide (s ∈ arr)
  | _ => false
  end.

(** A parameter with a default value, [f(x = d)]: the default is taken when
    the argument is missing or [undefined]. *)
Definition defaultParam (d v : JsValue) : JsValue :=
  match v with JsUndefined => d | _ => v end.

(** *** [parseInt(s, 16)] *)

Definition hexDigit (c : ascii) : option Z :=
  let n := Z.of_nat (nat_of_ascii c) in
  if ((48 <=? n) && (n <=? 57))%Z then Some (n - 48)%Z
  else if ((97 <=? n) && (n <=? 102))%Z then Some (n - 87)%Z
  else if ((65 <=? n) && (n <=? 70))%Z then Some (n - 55)%Z
  else None.

Definition isWhiteSpace (c : ascii) : bool :=
  let n := nat_of_ascii c in
  (n =? 32)%nat || ((9 <=? n)%nat && (n <=? 13)%nat).

Fixpoint trimStart (s : string) : string :=
  match s with
  | String c s' => if isWhiteSpace c then trimStart s' else s
  | EmptyString => s
  end.

(** The longest prefix of hexadecimal digits, read in base 16: the value read
    so far and whether a digit was seen. *)
Fixpoint hexPrefix (s : string) (acc : Z) (seen : bool) : option Z :=
  match s with
  | String c s' =>
      match hexDigit c with
      | Some d => hexPrefix s' (16 * acc + d)%Z true
      | None => if seen then Some acc else None
      end
  | EmptyString => if seen then Some acc else None
  end.

Definition stripHexPrefix (s : string) : string :=
  match s with
  | String "0"%char (String "x"%char s')
  | String "0"%char (String "X"%char s') => s'
  | _ => s
  end.

(** [parseInt(v, 16)]; [None] is [NaN].  The integer read is kept exact: the
    rounding to a double, which only changes values above 2^53, is left to
    the reader of the result. *)
Definition parseInt16 (v : JsValue) : option Z :=
  let s := trimStart (ToString v) in
  let '(sign, s) :=
    match s with
    | String "-"%char s' => ((-1)%Z, s')
    | String "+"%char s' => (1%Z, s')
    | _ => (1%Z, s)
    end in
  (λ n, sign * n)%Z <$> hexPrefix (stripHexPrefix s) 0 false.

(** ** What the controller imports from [shared/]

    [shared/constants/network] and [shared/modules/network.utils] are
    imported by the controller; they are taken as an interface. *)
Class SharedNetwork : Type := {
  (** the provider type reserved for url-based endpoints *)
  NETWORK_TYPE_RPC : string;
  (** the closed list of type-based endpoints *)
  INFURA_PROVIDER_TYPES : list string;
  (** type -> the [chainId] of its entry *)
  NETWORK_TYPE_TO_ID_MAP : gmap string JsValue;
  isPrefixedFormattedHexString : JsValue → bool;
  (** takes the result of [parseInt] *)
  isSafeChainId : option Z → bool;
  (** the branch of [defaultProviderConfigOpts] chosen by the environment *)
  defaultProviderConfigOpts : JsRecord;
}.

(** ** Connections *)

(** What [createInfuraClient] and [createJsonRpcClient] were called with. *)
Inductive NetworkClient : Type :=
  | InfuraClient (network projectId : JsValue)
  | JsonRpcClient (rpcUrl chainId : JsValue).

(** [providerFromEngine(engine)], the engine holding the wallet middleware
    built from [_baseProviderParams] and the client's network middleware. *)
Record Provider : Type := {
  provider_ref : nat;
  provider_params : JsValue;
  provider_client : NetworkClient;
}.

Record BlockTracker : Type := {
  blockTracker_ref : nat;
  blockTracker_client : NetworkClient;
}.

Global Instance NetworkClient_eq_dec : EqDecision NetworkClient.
Proof. solve_decision. Defined.
Global Instance Provider_eq_dec : EqDecision Provider.
Proof. solve_decision. Defined.
Global Instance BlockTracker_eq_dec : EqDecision BlockTracker.
Proof. solve_decision. Defined.

(** ** Events, errors, pending callbacks *)

Definition NETWORK_DID_CHANGE : string := "networkDidChange".
Definition NETWORK_WILL_CHANGE : string := "networkWillChange".

(** The functions registered with [this.on]. *)
Inductive Listener : Type :=
  | LookupNetworkListener.

Inductive JsError : Type :=
  | AssertionError (message : string)
  | TypeError (message : string)
  | Error (message : string).

(** The callback of one [ethQuery.sendAsync({ method: 'chain.id' }, cb)] that
    has not been called yet: the provider the query was built on and the
    [initialNetwork] captured by the closure. *)
Record Probe : Type := {
  probe_ref : nat;
  probe_provider : Provider;
  initialNetwork : JsValue;
}.

(** The effects of the controller, in program order. *)
Inductive Effect : Type :=
  | Emitted (event : string) (arg : JsValue)
  | Called (l : Listener)
  | NetworkPut (network : JsValue)
  | Installed (p : Provider) (b : BlockTracker)
  | Sent (p : Probe)
  | Warned (message : string).

Global Instance Listener_eq_dec : EqDecision Listener.
Proof. solve_decision. Defined.
Global Instance Probe_eq_dec : EqDecision Probe.
Proof. solve_decision. Defined.
Global Instance Effect_eq_dec : EqDecision Effect.
Proof. solve_decision. Defined.

(** ** The controller *)

(** The fields of the class, then the part of the runtime the class works
    on. *)
Record NetworkController : Type := mkController {
  (** [ObservableStore]s: their current state *)
  providerStore : JsRecord;
  previousProviderStore : JsRecord;
  networkStore : JsValue;
  _provider : option Provider;
  _blockTracker : option BlockTracker;
  (** the proxies are objects: the fields hold references *)
  _providerProxy : option nat;
  _blockTrackerProxy : option nat;
  _infuraProjectId : JsValue;
  _baseProviderParams : JsValue;
  (** [EventEmitter]: the listeners, in the order of registration *)
  listeners : list (string * Listener);
  (** the proxies allocated so far and the object each forwards to *)
  proxyTarget : gmap nat nat;
  (** the [sendAsync] callbacks that have not been called yet *)
  pending : list Probe;
  (** the next fresh reference *)
  nextRef : nat;
  effects : list Effect;
}.

Definition set_providerStore (v : JsRecord) (s : NetworkController) :=
  mkController v (previousProviderStore s) (networkStore s) (_provider s)
    (_blockTracker s) (_providerProxy s) (_blockTrackerProxy s)
    (_infuraProjectId s) (_baseProviderParams s) (listeners s) (proxyTarget s)
    (pending s) (nextRef s) (effects s).

Definition set_previousProviderStore (v : JsRecord) (s : NetworkController) :=
  mkController (providerStore s) v (networkStore s) (_provider s)
    (_blockTracker s) (_providerProxy s) (_blockTrackerProxy s)
    (_infuraProjectId s) (_baseProviderParams s) (listeners s) (proxyTarget s)
    (pending s) (nextRef s) (effects s).

Definition set_networkStore (v : JsValue) (s : NetworkController) :=
  mkController (providerStore s) (previousProviderStore s) v (_provider s)
    (_blockTracker s) (_providerProxy s) (_blockTrackerProxy s)
    (_infuraProjectId s) (_baseProviderParams s) (listeners s) (proxyTarget s)
    (pending s) (nextRef s) (effects s).

Definition set_connection (p : Provider) (b : BlockTracker)
    (s : NetworkController) :=
  mkController (providerStore s) (previousProviderStore s) (networkStore s)
    (Some p) (Some b) (_providerProxy s) (_blockTrackerProxy s)
    (_infuraProjectId s) (_baseProviderParams s) (listeners s) (proxyTarget s)
    (pending s) (nextRef s) (effects s).

Definition set_providerProxy (r : nat) (s : NetworkController) :=
  mkController (providerStore s) (previousProviderStore s) (networkStore s)
    (_provider s) (_blockTracker s) (Some r) (_blockTrackerProxy s)
    (_infuraProjectId s) (_baseProviderParams s) (listeners s) (proxyTarget s)
    (pending s) (nextRef s) (effects s).

Definition set_blockTrackerProxy (r : nat) (s : NetworkController) :=
  mkController (providerStore s) (previousProviderStore s) (networkStore s)
    (_provider s) (_blockTracker s) (_providerProxy s) (Some r)
    (_infuraProjectId s) (_baseProviderParams s) (listeners s) (proxyTarget s)
    (pending s) (nextRef s) (effects s).

Definition set_infuraProjectId (v : JsValue) (s : NetworkController) :=
  mkController (providerStore s) (previousProviderStore s) (networkStore s)
    (_provider s) (_blockTracker s) (_providerProxy s) (_blockTrackerProxy s)
    v (_baseProviderParams s) (listeners s) (proxyTarget s)
    (pending s) (nextRef s) (effects s).

Definition set_baseProviderParams (v : JsValue) (s : NetworkController) :=
  mkController (providerStore s) (previousProviderStore s) (networkStore s)
    (_provider s) (_blockTracker s) (_providerProxy s) (_blockTrackerProxy s)
    (_infuraProjectId s) v (listeners s) (proxyTarget s)
    (pending s) (nextRef s) (effects s).

Definition set_proxyTarget (v : gmap nat nat) (s : NetworkController) :=
  mkController (providerStore s) (previousProviderStore s) (networkStore s)
    (_provider s) (_blockTracker s) (_providerProxy s) (_blockTrackerProxy s)
    (_infuraProjectId s) (_baseProviderParams s) (listeners s) v
    (pending s) (nextRef s) (effects s).

Definition set_pending (v : list Probe) (s : NetworkController) :=
  mkController (providerStore s) (previousProviderStore s) (networkStore s)
    (_provider s) (_blockTracker s) (_providerProxy s) (_blockTrackerProxy s)
    (_infuraProjectId s) (_baseProviderParams s) (listeners s) (proxyTarget s)
    v (nextRef s) (effects s).

Definition set_nextRef (v : nat) (s : NetworkController) :=
  mkController (providerStore s) (previousProviderStore s) (networkStore s)
    (_provider s) (_blockTracker s) (_providerProxy s) (_blockTrackerProxy s)
    (_infuraProjectId s) (_baseProviderParams s) (listeners s) (proxyTarget s)
    (pending s) v (effects s).

Definition set_effects (v : list Effect) (s : NetworkController) :=
  mkController (providerStore s) (previousProviderStore s) (networkStore s)
    (_provider s) (_blockTracker s) (_providerProxy s) (_blockTrackerProxy s)
    (_infuraProjectId s) (_baseProviderParams s) (listeners s) (proxyTarget s)
    (pending s) (nextRef s) v.

(** *** Methods as computations on the controller *)

(** How a call ends. *)
Inductive Completion (A : Type) : Type :=
  | Normal (a : A)
  | Throw (e : JsError).
Arguments Normal {A} a.
Arguments Throw {A} e.

Definition M (A : Type) : Type :=
  NetworkController → NetworkController * Completion A.

Global Instance M_ret : MRet M := λ A a s, (s, Normal a).

Global Instance M_bind : MBind M := λ A B k m s,
  match m s with
  | (s', Normal a) => k a s'
  | (s', Throw e) => (s', Throw e)
  end.

Definition skip : M unit := mret tt.
Definition throw {A} (e : JsError) : M A := λ s, (s, Throw e).
Definition this : M NetworkController := λ s, (s, Normal s).
Definition modify (f : NetworkController → NetworkController) : M unit :=
  λ s, (f s, Normal tt).
Definition record (e : Effect) : M unit :=
  modify (λ s, set_effects (effects s ++ [e]) s).
Definition fresh : M nat :=
  λ s, (set_nextRef (S (nextRef s)) s, Normal (nextRef s)).

(** The state in which a call leaves the controller, and how it ends. *)
Definition after {A} (m : M A) (s : NetworkController) : NetworkController :=
  (m s).1.
Definition completion {A} (m : M A) (s : NetworkController) : Completion A :=
  (m s).2.

(** The result of calling an [async] function whose body has no [await]: the
    body runs at once, and what it throws rejects the promise returned. *)
Inductive Promise : Type :=
  | Fulfilled
  | Rejected (e : JsError).

Definition async (body : M unit) : M Promise := λ s,
  match body s with
  | (s', Normal _) => (s', Normal Fulfilled)
  | (s', Throw e) => (s', Normal (Rejected e))
  end.

(** [assert.ok(value, message)] *)
Definition assert_ok (value : bool) (message : string) : M unit :=
  if value then skip else throw (AssertionError message).

(** [assert.notStrictEqual(actual, expected, message)] *)
Definition assert_notStrictEqual (actual expected : JsValue)
    (message : string) : M unit :=
  if strictEquals actual expected then throw (AssertionError message)
  else skip.

(** The double quote of the messages. *)
Definition dq : string := String "034"%char EmptyString.

(** *** [ObservableStore]

    The stores are [ObservableStore]s of [@metamask/obs-store].
    [putState(v)] replaces the state.  [updateState(partialState)] merges:

      if (partialState && typeof partialState === 'object') {
        const state = this.getState();
        this.putState({ ...state, ...partialState });
      } else { this.putState(partialState); }

    The network store is written with [putState] (by [setNetworkState]); the
    two provider stores are written with [updateState] only, and always with
    an object. *)
Definition ObservableStore_updateState (partial state : JsRecord) : JsRecord :=
  spread state partial.

Definition loading : JsValue := JsString "loading".

Section Controller.
Context `{SharedNetwork}.

(** [const defaultProviderConfig = { ticker: 'STC', ...defaultProviderConfigOpts }] *)
Definition defaultProviderConfig : JsRecord :=
  spread {[ "ticker" := JsString "STC" ]} defaultProviderConfigOpts.

(** [new NetworkController(opts)]; [provider] is [opts.provider], [None] when
    it is missing. *)
Definition constructor (provider : option JsRecord) : NetworkController :=
  let providerState := default (spread ∅ defaultProviderConfig) provider in
  {| providerStore := providerState;
     previousProviderStore := providerState;
     networkStore := loading;
     _provider := None;
     _blockTracker := None;
     _providerProxy := None;
     _blockTrackerProxy := None;
     _infuraProjectId := JsUndefined;
     _baseProviderParams := JsUndefined;
     listeners := [(NETWORK_DID_CHANGE, LookupNetworkListener)];
     proxyTarget := ∅;
     pending := [];
     nextRef := 0;
     effects := [] |}.

Definition setInfuraProjectId (projectId : JsValue) : M unit :=
  match projectId with
  | JsString s =>
      if truthy projectId then modify (set_infuraProjectId projectId)
      else throw (Error "Invalid Infura project ID")
  | _ => throw (Error "Invalid Infura project ID")
  end.

Definition getProviderAndBlockTracker : M (option nat * option nat) :=
  s ← this; mret (_providerProxy s, _blockTrackerProxy s).

Definition getNetworkState : M JsValue :=
  s ← this; mret (networkStore s).

Definition setNetworkState (network : JsValue) : M unit :=
  modify (set_networkStore network);;
  record (NetworkPut network).

Definition isNetworkLoading : M bool :=
  network ← getNetworkState; mret (strictEquals network loading).

Definition getProviderConfig : M JsRecord :=
  s ← this; mret (providerStore s).

(** [NETWORK_TYPE_TO_ID_MAP[type]?.chainId || configChainId] *)
Definition getCurrentChainId : M JsValue :=
  config ← getProviderConfig;
  let type := field "type" config in
  let configChainId := field "chainId" config in
  mret (jsOr (default JsUndefined (NETWORK_TYPE_TO_ID_MAP !! ToString type))
             configChainId).

(** [ethQuery.sendAsync({ method: 'chain.id' }, callback)] on a query built
    on [provider]: the request leaves, the callback waits. *)
Definition sendAsync (provider : Provider) (initialNetwork : JsValue) : M unit :=
  r ← fresh;
  let probe := {| probe_ref := r; probe_provider := provider;
                  initialNetwork := initialNetwork |} in
  modify (λ s, set_pending (pending s ++ [probe]) s);;
  record (Sent probe).

Definition lookupNetwork : M unit :=
  s ← this;
  match _provider s with
  | None =>
      record (Warned "NetworkController - lookupNetwork aborted due to missing provider")
  | Some provider =>
      chainId ← getCurrentChainId;
      if negb (truthy chainId) then
        record (Warned "NetworkController - lookupNetwork aborted due to missing chainId");;
        setNetworkState loading
      else
        initialNetwork ← getNetworkState;
        sendAsync provider initialNetwork
  end.

(** The callback given to [sendAsync] in [lookupNetwork]. *)
Definition lookupNetwork_callback (probe : Probe) (err networkVersion : JsValue)
    : M unit :=
  currentNetwork ← getNetworkState;
  if strictEquals (initialNetwork probe) currentNetwork then
    if truthy err then setNetworkState loading
    else setNetworkState networkVersion
  else skip.

(** The answer to the request of [probe] arrives: if its callback is still
    waiting, it is called, and it is called only once. *)
Definition respond (probe : Probe) (err networkVersion : JsValue) : M unit :=
  s ← this;
  if bool_decide (probe ∈ pending s) then
    modify (set_pending (filter (λ p, p ≠ probe) (pending s)));;
    lookupNetwork_callback probe err networkVersion
  else skip.

Definition verifyNetwork : M unit :=
  isLoading ← isNetworkLoading;
  if isLoading : bool then lookupNetwork else skip.

Definition callListener (l : Listener) (arg : JsValue) : M unit :=
  record (Called l);;
  match l with
  | LookupNetworkListener => lookupNetwork
  end.

Fixpoint callListeners (event : string) (arg : JsValue)
    (ls : list (string * Listener)) : M unit :=
  match ls with
  | [] => skip
  | (e, l) :: ls' =>
      (if bool_decide (e = event) then callListener l arg else skip);;
      callListeners event arg ls'
  end.

(** [this.emit(event, arg)]: the listeners of [event] are called one after
    the other, in the order they were registered, before [emit] returns. *)
Definition emit (event : string) (arg : JsValue) : M unit :=
  record (Emitted event arg);;
  s ← this;
  callListeners event arg (listeners s).

Definition _setProviderAndBlockTracker (provider : Provider)
    (blockTracker : BlockTracker) : M unit :=
  s ← this;
  match _providerProxy s with
  | Some proxy =>
      modify (λ s, set_proxyTarget (<[proxy := provider_ref provider]> (proxyTarget s)) s)
  | None =>
      proxy ← fresh;
      modify (λ s, set_proxyTarget (<[proxy := provider_ref provider]> (proxyTarget s)) s);;
      modify (set_providerProxy proxy)
  end;;
  s ← this;
  match _blockTrackerProxy s with
  | Some proxy =>
      modify (λ s, set_proxyTarget (<[proxy := blockTracker_ref blockTracker]> (proxyTarget s)) s)
  | None =>
      proxy ← fresh;
      modify (λ s, set_proxyTarget (<[proxy := blockTracker_ref blockTracker]> (proxyTarget s)) s);;
      modify (set_blockTrackerProxy proxy)
  end;;
  modify (set_connection provider blockTracker);;
  record (Installed provider blockTracker).

(** [networkClient] is what the client factory returned: a network
    middleware and a block tracker, both made for [client]. *)
Definition _setNetworkClient (client : NetworkClient) : M unit :=
  b ← fresh;
  let blockTracker := {| blockTracker_ref := b; blockTracker_client := client |} in
  s ← this;
  p ← fresh;
  let provider := {| provider_ref := p;
                     provider_params := _baseProviderParams s;
                     provider_client := client |} in
  _setProviderAndBlockTracker provider blockTracker.

Definition _configureInfuraProvider (type projectId : JsValue) : M unit :=
  _setNetworkClient (InfuraClient type projectId).

Definition _configureStandardProvider (rpcUrl chainId : JsValue) : M unit :=
  _setNetworkClient (JsonRpcClient rpcUrl chainId).

Definition _configureProvider (opts : JsRecord) : M unit :=
  let type := field "type" opts in
  let rpcUrl := field "rpcUrl" opts in
  let chainId := field "chainId" opts in
  let isInfura := includes INFURA_PROVIDER_TYPES type in
  if isInfura then
    s ← this;
    _configureInfuraProvider type (_infuraProjectId s)
  else if strictEquals type (JsString NETWORK_TYPE_RPC) then
    _configureStandardProvider rpcUrl chainId
  else
    throw (Error ("NetworkController - _configureProvider - unknown type "
                  +:+ dq +:+ ToString type +:+ dq)).

Definition _switchNetwork (opts : JsRecord) : M unit :=
  emit NETWORK_WILL_CHANGE JsUndefined;;
  setNetworkState loading;;
  _configureProvider opts;;
  emit NETWORK_DID_CHANGE (field "type" opts).

Definition initializeProvider (providerParams : JsValue) : M unit :=
  modify (set_baseProviderParams providerParams);;
  config ← getProviderConfig;
  _configureProvider
    {[ "type" := field "type" config; "rpcUrl" := field "rpcUrl" config;
       "chainId" := field "chainId" config ]};;
  lookupNetwork.

Definition setProviderConfig (config : JsRecord) : M unit :=
  current ← getProviderConfig;
  modify (λ s, set_previousProviderStore
                 (ObservableStore_updateState current (previousProviderStore s)) s);;
  modify (λ s, set_providerStore
                 (ObservableStore_updateState config (providerStore s)) s);;
  _switchNetwork config.

Definition setRpcTarget (rpcUrl chainId ticker nickname rpcPrefs : JsValue)
    : M unit :=
  let ticker := defaultParam (JsString "STC") ticker in
  let nickname := defaultParam (JsString EmptyString) nickname in
  assert_ok (isPrefixedFormattedHexString chainId)
    ("Invalid chain ID " +:+ dq +:+ ToString chainId +:+ dq
     +:+ ": invalid hex string.");;
  assert_ok (isSafeChainId (parseInt16 chainId))
    ("Invalid chain ID " +:+ dq +:+ ToString chainId +:+ dq
     +:+ ": numerical value greater than max safe value.");;
  setProviderConfig
    {[ "type" := JsString NETWORK_TYPE_RPC; "rpcUrl" := rpcUrl;
       "chainId" := chainId; "ticker" := ticker; "nickname" := nickname;
       "rpcPrefs" := rpcPrefs ]}.

Definition setProviderType (type rpcUrl ticker nickname : JsValue) : M Promise :=
  let rpcUrl := defaultParam (JsString EmptyString) rpcUrl in
  let ticker := defaultParam (JsString "STC") ticker in
  let nickname := defaultParam (JsString EmptyString) nickname in
  async (
    assert_notStrictEqual type (JsString NETWORK_TYPE_RPC)
      ("NetworkController - cannot call " +:+ dq +:+ "setProviderType" +:+ dq
       +:+ " with type " +:+ dq +:+ NETWORK_TYPE_RPC +:+ dq +:+ ". Use "
       +:+ dq +:+ "setRpcTarget" +:+ dq);;
    assert_ok (includes INFURA_PROVIDER_TYPES type)
      ("Unknown Infura provider type " +:+ dq +:+ ToString type +:+ dq +:+ ".");;
    match NETWORK_TYPE_TO_ID_MAP !! ToString type with
    | None =>
        throw (TypeError "Cannot destructure property 'chainId' of undefined")
    | Some chainId =>
        setProviderConfig
          {[ "type" := type; "rpcUrl" := rpcUrl; "chainId" := chainId;
             "ticker" := ticker; "nickname" := nickname ]}
    end).

Definition resetConnection : M unit :=
  config ← getProviderConfig;
  setProviderConfig config.

Definition rollbackToPreviousProvider : M unit :=
  s ← this;
  let config := previousProviderStore s in
  modify (λ s, set_providerStore
                 (ObservableStore_updateState config (providerStore s)) s);;
  _switchNetwork config.

Definition getNetworkIdentifier : M JsValue :=
  s ← this;
  let provider := providerStore s in
  mret (if strictEquals (field "type" provider) (JsString NETWORK_TYPE_RPC)
        then field "rpcUrl" provider else field "type" provider).

(** *** The life of a controller

    What happens to a controller after its construction: its methods are
    called, and the answers to its [chain.id] requests arrive, in any
    order. *)
Inductive Call : Type :=
  | SetInfuraProjectId (projectId : JsValue)
  | InitializeProvider (providerParams : JsValue)
  | VerifyNetwork
  | LookupNetwork
  | SetRpcTarget (rpcUrl chainId ticker nickname rpcPrefs : JsValue)
  | SetProviderType (type rpcUrl ticker nickname : JsValue)
  | ResetConnection
  | RollbackToPreviousProvider
  | Response (probe : Probe) (err networkVersion : JsValue).

(** [await p] where [p] is already settled. *)
Definition await (p : M Promise) : M unit :=
  r ← p;
  match r with
  | Fulfilled => skip
  | Rejected e => throw e
  end.

Definition perform (c : Call) : M unit :=
  match c with
  | SetInfuraProjectId projectId => setInfuraProjectId projectId
  | InitializeProvider providerParams => initializeProvider providerParams
  | VerifyNetwork => verifyNetwork
  | LookupNetwork => lookupNetwork
  | SetRpcTarget rpcUrl chainId ticker nickname rpcPrefs =>
      setRpcTarget rpcUrl chainId ticker nickname rpcPrefs
  | SetProviderType type rpcUrl ticker nickname =>
      await (setProviderType type rpcUrl ticker nickname)
  | ResetConnection => resetConnection
  | RollbackToPreviousProvider => rollbackToPreviousProvider
  | Response probe err networkVersion => respond probe err networkVersion
  end.

(** The calls that switch the network: the setters, the reset and the
    rollback. *)
Definition isSwitch (c : Call) : bool :=
  match c with
  | SetRpcTarget _ _ _ _ _ | SetProviderType _ _ _ _
  | ResetConnection | RollbackToPreviousProvider => true
  | _ => false
  end.

(** A caller that catches what a call throws goes on with the controller as
    the call left it. *)
Definition run (cs : list Call) (s : NetworkController) : NetworkController :=
  foldl (λ s c, after (perform c) s) s cs.

(** The effects of a call made on [s], and the requests it sent. *)
Definition during (c : Call) (s : NetworkController) : list Effect :=
  drop (length (effects s)) (effects (after (perform c) s)).

Definition sentBy (c : Call) (s : NetworkController) : list Probe :=
  omap (λ e, match e with Sent p => Some p | _ => None end) (during c s).

Inductive reachable : NetworkController → Prop :=
  | reachable_constructor provider : reachable (constructor provider)
  | reachable_perform s c : reachable s → reachable (after (perform c) s).

(** *** Vocabulary of the specifications *)

(** The listener table the constructor leaves. *)
Definition subscriptions : list (string * Listener) :=
  [(NETWORK_DID_CHANGE, LookupNetworkListener)].

(** What [getCurrentChainId] returns in [s]. *)
Definition currentChainId (s : NetworkController) : JsValue :=
  jsOr (default JsUndefined
          (NETWORK_TYPE_TO_ID_MAP !! ToString (field "type" (providerStore s))))
       (field "chainId" (providerStore s)).

(** The client that [_configureProvider(opts)] builds, if [opts.type] is
    known. *)
Definition clientFor (opts : JsRecord) (s : NetworkController)
    : option NetworkClient :=
  if includes INFURA_PROVIDER_TYPES (field "type" opts) then
    Some (InfuraClient (field "type" opts) (_infuraProjectId s))
  else if strictEquals (field "type" opts) (JsString NETWORK_TYPE_RPC) then
    Some (JsonRpcClient (field "rpcUrl" opts) (field "chainId" opts))
  else None.

(** Whether [_configureProvider(opts)] knows [opts.type]. *)
Definition knownType (opts : JsRecord) : bool :=
  includes INFURA_PROVIDER_TYPES (field "type" opts)
  || strictEquals (field "type" opts) (JsString NETWORK_TYPE_RPC).

(** The two proxies are created together and are two objects. *)
Definition distinctProxies (s : NetworkController) : Prop :=
  match _providerProxy s, _blockTrackerProxy s with
  | Some a, Some b => a ≠ b
  | None, None => True
  | _, _ => False
  end.

Definition logged (es : list Effect) (s : NetworkController) : NetworkController :=
  set_effects (effects s ++ es) s.

Definition stored (current previous : JsRecord) (s : NetworkController)
    : NetworkController :=
  set_providerStore current (set_previousProviderStore previous s).

(** What every state of a controller satisfies. *)
Definition wellFormed (s : NetworkController) : Prop :=
  listeners s = subscriptions
  ∧ distinctProxies s
  ∧ dom (previousProviderStore s) ⊆ dom (providerStore s).

(** A call that writes nothing but the network status, and writes it only
    to ['loading']. *)
Record Calm (s s' : NetworkController) : Prop := {
  calm_providerStore : providerStore s' = providerStore s;
  calm_previousProviderStore :
    previousProviderStore s' = previousProviderStore s;
  calm_listeners : listeners s' = listeners s;
  calm_networkStore :
    networkStore s' = networkStore s ∨ networkStore s' = loading;
}.

(** [lookupNetwork] took [s] to [s'] with the effects [rest]. *)
Record Looked (s s' : NetworkController) (rest : list Effect) : Prop := {
  looked_providerStore : providerStore s' = providerStore s;
  looked_previousProviderStore :
    previousProviderStore s' = previousProviderStore s;
  looked_provider : _provider s' = _provider s;
  looked_blockTracker : _blockTracker s' = _blockTracker s;
  looked_providerProxy : _providerProxy s' = _providerProxy s;
  looked_blockTrackerProxy : _blockTrackerProxy s' = _blockTrackerProxy s;
  looked_proxyTarget : proxyTarget s' = proxyTarget s;
  looked_infuraProjectId : _infuraProjectId s' = _infuraProjectId s;
  looked_baseProviderParams : _baseProviderParams s' = _baseProviderParams s;
  looked_listeners : listeners s' = listeners s;
  looked_effects : effects s' = effects s ++ rest;
  looked_nextRef : nextRef s ≤ nextRef s';
  looked_cases :
    (_provider s = None ∧ networkStore s' = networkStore s
     ∧ pending s' = pending s ∧ ∃ m, rest = [Warned m])
    ∨ (is_Some (_provider s) ∧ truthy (currentChainId s) = false
       ∧ networkStore s' = loading ∧ pending s' = pending s
       ∧ ∃ m, rest = [Warned m; NetworkPut loading])
    ∨ (∃ provider probe,
         _provider s = Some provider ∧ truthy (currentChainId s) = true
         ∧ networkStore s' = networkStore s
         ∧ probe = {| probe_ref := nextRef s; probe_provider := provider;
                      initialNetwork := networkStore s |}
         ∧ nextRef s' = S (nextRef s)
         ∧ pending s' = pending s ++ [probe] ∧ rest = [Sent probe]);
}.

(** [_configureProvider] took [s] to [s'], installing a connection made
    for [client]. *)
Record Configured (s s' : NetworkController) (client : NetworkClient)
    (provider : Provider) (blockTracker : BlockTracker) : Prop := {
  configured_providerStore : providerStore s' = providerStore s;
  configured_previousProviderStore :
    previousProviderStore s' = previousProviderStore s;
  configured_networkStore : networkStore s' = networkStore s;
  configured_infuraProjectId : _infuraProjectId s' = _infuraProjectId s;
  configured_baseProviderParams :
    _baseProviderParams s' = _baseProviderParams s;
  configured_listeners : listeners s' = listeners s;
  configured_pending : pending s' = pending s;
  configured_effects :
    effects s' = effects s ++ [Installed provider blockTracker];
  configured_nextRef : nextRef s + 2 ≤ nextRef s';
  configured_provider : _provider s' = Some provider;
  configured_blockTracker : _blockTracker s' = Some blockTracker;
  configured_new_provider :
    provider = {| provider_ref := S (nextRef s);
                  provider_params := _baseProviderParams s;
                  provider_client := client |};
  configured_new_blockTracker :
    blockTracker = {| blockTracker_ref := nextRef s;
                      blockTracker_client := client |};
  configured_providerProxy :
    ∀ proxy, _providerProxy s = Some proxy → _providerProxy s' = Some proxy;
  configured_blockTrackerProxy :
    ∀ proxy, _blockTrackerProxy s = Some proxy →
             _blockTrackerProxy s' = Some proxy;
  configured_distinct : distinctProxies s';
  configured_targets :
    ∃ p b, _providerProxy s' = Some p ∧ _blockTrackerProxy s' = Some b
           ∧ proxyTarget s' !! p = Some (provider_ref provider)
           ∧ proxyTarget s' !! b = Some (blockTracker_ref blockTracker);
}.

(** [_switchNetwork(opts)] took [s] to [s'] and returned. *)
Record Switched (opts : JsRecord) (s s' : NetworkController)
    (provider : Provider) (blockTracker : BlockTracker) (rest : list Effect)
    : Prop := {
  switched_providerStore : providerStore s' = providerStore s;
  switched_previousProviderStore :
    previousProviderStore s' = previousProviderStore s;
  switched_infuraProjectId : _infuraProjectId s' = _infuraProjectId s;
  switched_baseProviderParams :
    _baseProviderParams s' = _baseProviderParams s;
  switched_listeners : listeners s' = listeners s;
  switched_networkStore : networkStore s' = loading;
  switched_provider : _provider s' = Some provider;
  switched_blockTracker : _blockTracker s' = Some blockTracker;
  switched_new_provider :
    clientFor opts s = Some (provider_client provider)
    ∧ provider_params provider = _baseProviderParams s
    ∧ provider_ref provider = S (nextRef s);
  switched_new_blockTracker :
    clientFor opts s = Some (blockTracker_client blockTracker)
    ∧ blockTracker_ref blockTracker = nextRef s;
  switched_providerProxy :
    ∀ proxy, _providerProxy s = Some proxy → _providerProxy s' = Some proxy;
  switched_blockTrackerProxy :
    ∀ proxy, _blockTrackerProxy s = Some proxy →
             _blockTrackerProxy s' = Some proxy;
  switched_distinct : distinctProxies s';
  switched_targets :
    ∃ p b, _providerProxy s' = Some p ∧ _blockTrackerProxy s' = Some b
           ∧ proxyTarget s' !! p = Some (provider_ref provider)
           ∧ proxyTarget s' !! b = Some (blockTracker_ref blockTracker);
  switched_effects :
    effects s'
    = effects s
      ++ [Emitted NETWORK_WILL_CHANGE JsUndefined; NetworkPut loading;
          Installed provider blockTracker;
          Emitted NETWORK_DID_CHANGE (field "type" opts);
          Called LookupNetworkListener]
      ++ rest;
  switched_nextRef : nextRef s + 2 ≤ nextRef s';
  switched_pending : pending s ⊆ pending s';
  switched_cases :
    (truthy (currentChainId s) = false ∧ pending s' = pending s
     ∧ ∃ m, rest = [Warned m; NetworkPut loading])
    ∨ (∃ probe,
         truthy (currentChainId s) = true
         ∧ probe_provider probe = provider ∧ initialNetwork probe = loading
         ∧ nextRef s + 2 ≤ probe_ref probe < nextRef s'
         ∧ pending s' = pending s ++ [probe] ∧ rest = [Sent probe]);
}.

(** How a switching call ends: on a failed validation, on an unknown type,
    or with the network switched. *)
Inductive SwitchOutcome (c : Call) (s : NetworkController) : Prop :=
  | switch_rejected e :
      perform c s = (s, Throw e) →
      SwitchOutcome c s
  | switch_aborted current previous message :
      perform c s
      = (logged [Emitted NETWORK_WILL_CHANGE JsUndefined; NetworkPut loading]
           (set_networkStore loading (stored current previous s)),
         Throw (Error message)) →
      SwitchOutcome c s
  | switch_done opts current previous s' provider blockTracker rest :
      perform c s = (s', Normal tt) →
      Switched opts (stored current previous s) s' provider blockTracker rest →
      SwitchOutcome c s.

End Controller.

(** ** A concrete environment *)

Module Scenario.

Fixpoint allHex (s : string) : bool :=
  match s with
  | String c s' => bool_decide (is_Some (hexDigit c)) && allHex s'
  | EmptyString => true
  end.

(** Modelled from the spec: [isPrefixedFormattedHexString] of
    [shared/modules/network.utils], the check that a chainId is a 0x-prefixed
    hex string. *)
Definition isPrefixedFormattedHexString (v : JsValue) : bool :=
  match v with
  | JsString (String "0"%char (String "x"%char (String c s))) =>
      allHex (String c s)
  | _ => false
  end.

(** Modelled from the spec: [isSafeChainId] of
    [shared/modules/network.utils], the check that the number is within the
    safe-integer bound. *)
Definition isSafeChainId (n : option Z) : bool :=
  match n with
  | Some n => ((- (2 ^ 53 - 1) <=? n) && (n <=? 2 ^ 53 - 1))%Z
  | None => false
  end.

(** Modelled from the spec: the constants of [shared/constants/network], with
    the names and values of the spec's scenario: one managed endpoint, main,
    of chainId 0x1, and the sentinel of custom endpoints. *)
Definition shared : SharedNetwork :=
  Build_SharedNetwork
    "customRpcSentinel"
    ["main"]
    {[ "main" := JsString "0x1" ]}
    isPrefixedFormattedHexString
    isSafeChainId
    {[ "type" := JsString "main"; "chainId" := JsString "0x1" ]}.

#[local] Existing Instance shared.

(** A controller on the default configuration, initialised. *)
Definition started : NetworkController :=
  after (initializeProvider (JsObject 0)) (constructor None).

(** The two switches of the spec's scenario: to a custom endpoint, and
    back. *)
Definition toLocalhost : Call :=
  SetRpcTarget (JsString "http://localhost:9850") (JsString "0xfe")
    JsUndefined JsUndefined JsUndefined.

Definition onLocalhost : NetworkController :=
  after (perform toLocalhost) started.

Definition backOnMain : NetworkController :=
  after (perform RollbackToPreviousProvider) onLocalhost.

(** The requests in flight: the one sent by [initializeProvider], and the
    ones of the two switches. *)
Definition mainProvider : Provider :=
  {| provider_ref := 1; provider_params := JsObject 0;
     provider_client := InfuraClient (JsString "main") JsUndefined |}.

Definition localhostProvider : Provider :=
  {| provider_ref := 6; provider_params := JsObject 0;
     provider_client :=
       JsonRpcClient (JsString "http://localhost:9850") (JsString "0xfe") |}.

Definition mainAgainProvider : Provider :=
  {| provider_ref := 9; provider_params := JsObject 0;
     provider_client := InfuraClient (JsString "main") JsUndefined |}.

Definition firstProbe : Probe :=
  {| probe_ref := 4; probe_provider := mainProvider;
     initialNetwork := loading |}.

Definition localhostProbe : Probe :=
  {| probe_ref := 7; probe_provider := localhostProvider;
     initialNetwork := loading |}.

Definition mainAgainProbe : Probe :=
  {| probe_ref := 10; probe_provider := mainAgainProvider;
     initialNetwork := loading |}.

End Scenario.

(** * Properties *)

Ltac munfold :=
  cbv [mbind mret M_bind M_ret this modify record fresh skip throw after
       completion async await assert_ok assert_notStrictEqual].

Section Properties.
Context `{SharedNetwork}.

(** ** The probe *)

Lemma lookupNetwork_looked s :
  ∃ s' rest, lookupNetwork s = (s', Normal tt) ∧ Looked s s' rest.
Proof.
  unfold lookupNetwork, getCurrentChainId, getNetworkState, getProviderConfig,
    setNetworkState, sendAsync. munfold.
  destruct (_provider s) as [provider|] eqn:Hp; simpl.
  - destruct (truthy (currentChainId s)) eqn:Hc;
      pose proof Hc as Hc'; unfold currentChainId in Hc'; rewrite Hc'; simpl;
      eexists _, _; (split; [reflexivity|]); split; simpl; try done; try lia.
    + right; right. eexists _, _. repeat split; eauto.
    + rewrite <- app_assoc. reflexivity.
    + right; left. eauto 10.
  - eexists _, _; split; [reflexivity|]. split; simpl; try done.
    left. eauto.
Qed.

Lemma Looked_Calm s s' rest : Looked s s' rest → Calm s s'.
Proof.
  intros [? ? ? ? ? ? ? ? ? ? ? ? Hc]. split; try done.
  destruct Hc as [(_ & ? & _)|[(_ & _ & ? & _)|(? & ? & _ & _ & ? & _)]]; auto.
Qed.

Lemma Calm_refl s : Calm s s.
Proof. split; auto. Qed.

Lemma Calm_trans s1 s2 s3 : Calm s1 s2 → Calm s2 s3 → Calm s1 s3.
Proof.
  intros [? ? ? Hn] [? ? ? Hn']. split; try congruence.
  destruct Hn' as [Hn'|Hn']; [rewrite Hn'|]; auto.
Qed.

Lemma Calm_logged es s : Calm s (logged es s).
Proof. split; simpl; auto. Qed.

(** ** Events *)

Lemma callListeners_calm event arg ls s :
  ∃ s', callListeners event arg ls s = (s', Normal tt) ∧ Calm s s'.
Proof.
  revert s. induction ls as [|[e l] ls IH]; intros s; simpl.
  - exists s. split; [done|apply Calm_refl].
  - unfold mbind, M_bind. case_bool_decide.
    + destruct l. unfold callListener. munfold.
      match goal with |- context [lookupNetwork ?s0] =>
        destruct (lookupNetwork_looked s0) as (s1 & rest & -> & H1) end.
      apply Looked_Calm in H1.
      destruct (IH s1) as (s' & -> & H2). exists s'. split; [done|].
      eapply Calm_trans; [|exact H2].
      eapply Calm_trans; [|exact H1]. split; simpl; auto.
    + unfold skip, mret, M_ret. apply IH.
Qed.

Lemma emit_calm event arg s :
  ∃ s', emit event arg s = (s', Normal tt) ∧ Calm s s'.
Proof.
  unfold emit. munfold.
  match goal with |- context [callListeners _ _ ?ls ?s0] =>
    destruct (callListeners_calm event arg ls s0) as (s' & -> & H1) end.
  exists s'. split; [done|].
  eapply Calm_trans; [|exact H1]. split; simpl; auto.
Qed.

Lemma emit_will_change s arg :
  listeners s = subscriptions →
  emit NETWORK_WILL_CHANGE arg s
  = (logged [Emitted NETWORK_WILL_CHANGE arg] s, Normal tt).
Proof.
  intros Hl. unfold emit. munfold. simpl. rewrite Hl. reflexivity.
Qed.

Lemma emit_did_change s arg :
  listeners s = subscriptions →
  ∃ s' rest,
    emit NETWORK_DID_CHANGE arg s = (s', Normal tt)
    ∧ Looked (logged [Emitted NETWORK_DID_CHANGE arg;
                      Called LookupNetworkListener] s) s' rest.
Proof.
  intros Hl. unfold emit. munfold. simpl. rewrite Hl. simpl.
  unfold callListener. munfold. simpl.
  match goal with |- context [lookupNetwork ?s0] =>
    destruct (lookupNetwork_looked s0) as (s' & rest & -> & Hs') end.
  exists s', rest. split; [done|].
  destruct Hs' as [? ? ? ? ? ? ? ? ? ? He ? Hc].
  split; simpl in *; try done.
  rewrite He, <- !app_assoc. done.
Qed.

(** ** Installing a connection *)

Lemma _configureProvider_unknown opts s :
  clientFor opts s = None →
  ∃ message, _configureProvider opts s = (s, Throw (Error message)).
Proof.
  unfold clientFor, _configureProvider. munfold.
  destruct (includes _ _); [done|]. destruct (strictEquals _ _); [done|].
  eauto.
Qed.

Lemma _setNetworkClient_calm client s :
  ∃ s', _setNetworkClient client s = (s', Normal tt)
        ∧ Calm s s' ∧ networkStore s' = networkStore s.
Proof.
  unfold _setNetworkClient, _setProviderAndBlockTracker. munfold. simpl.
  destruct (_providerProxy s) as [p|] eqn:Hp,
           (_blockTrackerProxy s) as [b|] eqn:Hb; simpl;
    rewrite ?Hp, ?Hb; simpl; eexists; (split; [reflexivity|]);
    repeat split; simpl; auto.
Qed.

Lemma _configureProvider_calm opts s :
  is_Some (clientFor opts s) →
  ∃ s', _configureProvider opts s = (s', Normal tt)
        ∧ Calm s s' ∧ networkStore s' = networkStore s.
Proof.
  unfold clientFor, _configureProvider, _configureInfuraProvider,
    _configureStandardProvider. munfold.
  destruct (includes _ _); [|destruct (strictEquals _ _)];
    intros [client [=]]; apply _setNetworkClient_calm.
Qed.

Lemma _setNetworkClient_configured client s :
  distinctProxies s →
  ∃ s' provider blockTracker,
    _setNetworkClient client s = (s', Normal tt)
    ∧ Configured s s' client provider blockTracker.
Proof.
  unfold distinctProxies, _setNetworkClient, _setProviderAndBlockTracker.
  munfold. simpl.
  destruct (_providerProxy s) as [p|] eqn:Hp,
           (_blockTrackerProxy s) as [b|] eqn:Hb; try done; intros Hd; simpl;
    rewrite ?Hp, ?Hb; simpl; eexists _, _, _; (split; [reflexivity|]);
    split; simpl; rewrite ?Hp, ?Hb; try done; try lia.
  all: unfold distinctProxies; simpl; rewrite ?Hp, ?Hb; try done; try lia.
  all: eexists _, _; split; [done|]; split; [done|].
  all: rewrite lookup_insert_eq, lookup_insert_ne, lookup_insert_eq by lia.
  all: done.
Qed.

Lemma _configureProvider_configured opts client s :
  clientFor opts s = Some client →
  distinctProxies s →
  ∃ s' provider blockTracker,
    _configureProvider opts s = (s', Normal tt)
    ∧ Configured s s' client provider blockTracker.
Proof.
  unfold clientFor, _configureProvider, _configureInfuraProvider,
    _configureStandardProvider. munfold.
  destruct (includes _ _); [|destruct (strictEquals _ _); [|done]];
    intros [= <-]; apply _setNetworkClient_configured.
Qed.

(** ** The switch *)

Lemma clientFor_knownType opts s :
  knownType opts = true → is_Some (clientFor opts s).
Proof.
  unfold knownType, clientFor.
  destruct (includes _ _); [eauto|]. destruct (strictEquals _ _); [eauto|done].
Qed.

Lemma clientFor_unknownType opts s :
  knownType opts = false → clientFor opts s = None.
Proof.
  unfold knownType, clientFor.
  destruct (includes _ _); [done|]. destruct (strictEquals _ _); done.
Qed.

(** On any controller: the switch touches neither store, leaves the status
    at ['loading'], and returns unless the type is unknown. *)
Lemma _switchNetwork_calm opts s :
  Calm s (after (_switchNetwork opts) s)
  ∧ networkStore (after (_switchNetwork opts) s) = loading
  ∧ (knownType opts = true → completion (_switchNetwork opts) s = Normal tt).
Proof.
  unfold after, completion, _switchNetwork.
  unfold mbind at 1 2 4 5 7 8. unfold M_bind at 1 2 4 5 7 8.
  destruct (emit_calm NETWORK_WILL_CHANGE JsUndefined s) as (s1 & -> & H1).
  unfold setNetworkState. munfold.
  set (s2 := set_effects _ _).
  assert (Calm s s2 ∧ networkStore s2 = loading) as [H2 Hn2].
  { split; [|done]. destruct H1. split; simpl; auto. }
  destruct (knownType opts) eqn:Hk.
  - destruct (_configureProvider_calm opts s2) as (s3 & -> & H3 & Hn3);
      [by apply clientFor_knownType|].
    destruct (emit_calm NETWORK_DID_CHANGE (field "type" opts) s3)
      as (s4 & -> & H4). simpl.
    split; [eauto using Calm_trans|]. split; [|done].
    destruct H4 as [_ _ _ [Hn4|Hn4]]; congruence.
  - destruct (_configureProvider_unknown opts s2) as (m & ->);
      [by apply clientFor_unknownType|]. simpl. done.
Qed.

Lemma _switchNetwork_unknown opts s :
  listeners s = subscriptions →
  knownType opts = false →
  ∃ message,
    _switchNetwork opts s
    = (logged [Emitted NETWORK_WILL_CHANGE JsUndefined; NetworkPut loading]
         (set_networkStore loading s),
       Throw (Error message)).
Proof.
  intros Hl Hc. unfold _switchNetwork.
  unfold mbind at 1 2. unfold M_bind at 1 2.
  rewrite emit_will_change by done. unfold setNetworkState. munfold.
  match goal with |- context [_configureProvider opts ?s0] =>
    destruct (_configureProvider_unknown opts s0) as [m ->];
      [by apply clientFor_unknownType|] end.
  exists m. unfold logged. simpl. by rewrite <- app_assoc.
Qed.

Lemma _switchNetwork_switched opts s :
  listeners s = subscriptions →
  distinctProxies s →
  knownType opts = true →
  ∃ s' provider blockTracker rest,
    _switchNetwork opts s = (s', Normal tt)
    ∧ Switched opts s s' provider blockTracker rest.
Proof.
  intros Hl Hd Hk.
  destruct (clientFor_knownType opts s Hk) as [client Hc].
  unfold _switchNetwork.
  unfold mbind at 1 2. unfold M_bind at 1 2.
  rewrite emit_will_change by done. unfold setNetworkState. munfold.
  match goal with |- context [_configureProvider opts ?s0] =>
    destruct (_configureProvider_configured opts client s0 Hc Hd)
      as (s1 & provider & blockTracker & -> & H1) end.
  destruct H1 as [Hps1 ? Hn1 ? ? Hl1 Hq1 He1 ? Hp1 ? Hnp Hnb ? ? ? Ht1].
  simpl in *.
  destruct (emit_did_change s1 (field "type" opts)) as (s' & rest & -> & H2);
    [congruence|].
  destruct H2 as [Hps2 ? Hp2 ? Hpp2 Hbp2 Hpt2 ? ? ? He2 ? Hc2].
  unfold currentChainId in Hc2. simpl in *.
  rewrite Hps1 in Hc2. fold (currentChainId s) in Hc2.
  exists s', provider, blockTracker, rest. split; [done|].
  assert (pending s' = pending s
          ∨ ∃ probe, pending s' = pending s ++ [probe]) as Hq.
  { destruct Hc2 as [(_ & _ & Hq2 & _)|[(_ & _ & _ & Hq2 & _)
      |(? & probe & _ & _ & _ & _ & _ & Hq2 & _)]];
      rewrite Hq2, Hq1; eauto. }
  split; simpl; try congruence; try lia.
  - destruct Hc2 as [(Hnone & _)|[(_ & Hch & Hn2 & Hq2 & m & ->)
      |(provider' & probe & Hprov & Hch & Hn2 & -> & Hr & Hq2 & ->)]];
      congruence.
  - by rewrite Hnp.
  - by rewrite Hnb.
  - intros proxy Hproxy. rewrite Hpp2. auto.
  - intros proxy Hproxy. rewrite Hbp2. auto.
  - unfold distinctProxies in *. by rewrite Hpp2, Hbp2.
  - destruct Ht1 as (p & b & ? & ? & ? & ?). exists p, b.
    rewrite Hpp2, Hbp2, Hpt2. done.
  - rewrite He2, He1, <- !app_assoc. done.
  - destruct Hq as [->|[probe ->]]; [done|].
    intros p Hp. apply elem_of_app. by left.
  - destruct Hc2 as [(Hnone & _)|[(_ & Hch & Hn2 & Hq2 & m & ->)
      |(provider' & probe & Hprov & Hch & Hn2 & -> & Hr & Hq2 & ->)]].
    + congruence.
    + left. repeat split; eauto; congruence.
    + right. eexists. repeat split; eauto; simpl; try congruence; try lia.
Qed.

(** ** The setters *)

Lemma await_async (body : M unit) s : await (async body) s = body s.
Proof. unfold await, async. munfold. by destruct (body s) as [s' [[]|e]]. Qed.

Lemma setProviderConfig_unfold config s :
  setProviderConfig config s
  = _switchNetwork config
      (stored (ObservableStore_updateState config (providerStore s))
         (ObservableStore_updateState (providerStore s)
            (previousProviderStore s)) s).
Proof. reflexivity. Qed.

Lemma rollbackToPreviousProvider_unfold s :
  rollbackToPreviousProvider s
  = _switchNetwork (previousProviderStore s)
      (stored (ObservableStore_updateState (previousProviderStore s)
                 (providerStore s))
         (previousProviderStore s) s).
Proof. destruct s. reflexivity. Qed.

Lemma resetConnection_unfold s :
  resetConnection s = setProviderConfig (providerStore s) s.
Proof. reflexivity. Qed.

Lemma spread_absorb (a b : JsRecord) : dom a ⊆ dom b → spread a b = b.
Proof.
  intros Hd. unfold spread. apply map_eq. intros k.
  rewrite lookup_union. destruct (b !! k) eqn:Hb, (a !! k) eqn:Ha; try done.
  assert (k ∈ dom b) as Hk by (apply Hd, elem_of_dom; eauto).
  apply elem_of_dom in Hk as [? ?]. congruence.
Qed.

Lemma spread_self (a : JsRecord) : spread a a = a.
Proof. by apply spread_absorb. Qed.

Lemma dom_spread (a b : JsRecord) : dom (spread a b) = dom a ∪ dom b.
Proof.
  unfold spread. rewrite dom_union_L. apply set_eq. intros k.
  rewrite !elem_of_union. tauto.
Qed.

(** ** Every state of a controller is well formed *)

Lemma wellFormed_frame s s' :
  listeners s' = listeners s →
  _providerProxy s' = _providerProxy s →
  _blockTrackerProxy s' = _blockTrackerProxy s →
  providerStore s' = providerStore s →
  previousProviderStore s' = previousProviderStore s →
  wellFormed s → wellFormed s'.
Proof.
  unfold wellFormed, distinctProxies. intros -> -> -> -> ->. done.
Qed.

Lemma wellFormed_constructor provider : wellFormed (constructor provider).
Proof. split; [done|]. split; [exact I|done]. Qed.

Lemma wellFormed_Looked s s' rest :
  Looked s s' rest → wellFormed s → wellFormed s'.
Proof. intros []. by apply wellFormed_frame. Qed.

Lemma wellFormed_lookupNetwork s :
  wellFormed s → wellFormed (after lookupNetwork s).
Proof.
  destruct (lookupNetwork_looked s) as (s' & rest & Hs & Hl).
  unfold after. rewrite Hs. by apply wellFormed_Looked with rest.
Qed.

Lemma wellFormed_switchNetwork opts s :
  wellFormed s → wellFormed (after (_switchNetwork opts) s).
Proof.
  intros (Hl & Hd & Hdom). unfold after.
  destruct (knownType opts) eqn:Hk.
  - destruct (_switchNetwork_switched opts s Hl Hd Hk)
      as (s' & provider & blockTracker & rest & -> & Hs).
    destruct Hs as [Hps Hpv _ _ Hls _ _ _ _ _ _ _ Hdist _ _ _ _ _]. simpl.
    split; [congruence|]. split; [done|]. by rewrite Hps, Hpv.
  - destruct (_switchNetwork_unknown opts s Hl Hk) as (m & ->).
    by repeat split.
Qed.

Lemma wellFormed_stored current previous s :
  dom previous ⊆ dom current →
  wellFormed s → wellFormed (stored current previous s).
Proof. intros Hdom (? & ? & _). by repeat split. Qed.

Lemma dom_updateState_setter (config current previous : JsRecord) :
  dom previous ⊆ dom current →
  dom (ObservableStore_updateState current previous)
  ⊆ dom (ObservableStore_updateState config current).
Proof.
  intros Hdom. unfold ObservableStore_updateState. rewrite !dom_spread.
  intros k. rewrite !elem_of_union. intros [Hk|Hk]; [apply Hdom in Hk|]; auto.
Qed.

(** A switching call either stops on a failed validation, before anything
    is written, or writes the stores and runs [_switchNetwork]. *)
Lemma perform_switch c s :
  isSwitch c = true →
  wellFormed s →
  (∃ e, perform c s = (s, Throw e))
  ∨ (∃ opts current previous,
       perform c s = _switchNetwork opts (stored current previous s)
       ∧ dom previous ⊆ dom current).
Proof.
  intros Hc (_ & _ & Hdom). destruct c; try done; unfold perform.
  - unfold setRpcTarget. munfold.
    destruct (isPrefixedFormattedHexString chainId); [|eauto].
    destruct (isSafeChainId (parseInt16 chainId)); [|eauto].
    right. rewrite setProviderConfig_unfold. eexists _, _, _. split; [done|].
    by apply dom_updateState_setter.
  - unfold setProviderType. rewrite await_async. munfold.
    unfold strictEquals.
    case_bool_decide; [eauto|].
    destruct (includes _ _); [|eauto].
    destruct (NETWORK_TYPE_TO_ID_MAP !! _); [|eauto].
    right. rewrite setProviderConfig_unfold. eexists _, _, _. split; [done|].
    by apply dom_updateState_setter.
  - right. rewrite resetConnection_unfold, setProviderConfig_unfold.
    eexists _, _, _. split; [done|].
    by apply dom_updateState_setter.
  - right. rewrite rollbackToPreviousProvider_unfold.
    eexists _, _, _. split; [done|].
    unfold ObservableStore_updateState. rewrite !dom_spread.
    intros k. rewrite !elem_of_union. tauto.
Qed.

Lemma respond_frame probe err networkVersion s :
  let s' := after (respond probe err networkVersion) s in
  completion (respond probe err networkVersion) s = Normal tt
  ∧ providerStore s' = providerStore s
  ∧ previousProviderStore s' = previousProviderStore s
  ∧ listeners s' = listeners s
  ∧ _providerProxy s' = _providerProxy s
  ∧ _blockTrackerProxy s' = _blockTrackerProxy s
  ∧ proxyTarget s' = proxyTarget s
  ∧ _provider s' = _provider s.
Proof.
  unfold respond, lookupNetwork_callback, getNetworkState, setNetworkState.
  munfold. simpl.
  case_bool_decide; simpl; [|done].
  destruct (strictEquals _ _); [destruct (truthy err)|]; simpl; done.
Qed.

Lemma wellFormed_perform c s :
  wellFormed s → wellFormed (after (perform c) s).
Proof.
  intros Hwf. destruct (isSwitch c) eqn:Hc.
  - destruct (perform_switch c s Hc Hwf)
      as [[e He]|(opts & current & previous & He & Hdom)];
      unfold after; rewrite He; simpl; [done|].
    by apply wellFormed_switchNetwork, wellFormed_stored.
  - destruct c; try done; simpl.
    + unfold after, setInfuraProjectId. munfold.
      destruct projectId; try done. by destruct (truthy _).
    + unfold after, initializeProvider, getProviderConfig. munfold.
      set (s0 := set_baseProviderParams _ _).
      assert (wellFormed s0) as Hwf0 by done.
      match goal with |- context [_configureProvider ?o s0] =>
        set (opts := o) end.
      destruct (knownType opts) eqn:Hk.
      * destruct (clientFor_knownType opts s0 Hk) as [client Hcl].
        destruct (_configureProvider_configured opts client s0 Hcl)
          as (s1 & provider & blockTracker & -> & H1); [apply Hwf0|].
        apply wellFormed_lookupNetwork.
        destruct Hwf0 as (? & ? & ?).
        destruct H1 as [Hps Hpv _ _ _ Hls _ _ _ _ _ _ _ _ _ Hdist _].
        split; [congruence|]. split; [done|]. by rewrite Hps, Hpv.
      * destruct (_configureProvider_unknown opts s0) as (m & ->);
          [by apply clientFor_unknownType|]. done.
    + unfold after, verifyNetwork, isNetworkLoading, getNetworkState. munfold.
      destruct (strictEquals _ _); [|done].
      by apply wellFormed_lookupNetwork.
    + by apply wellFormed_lookupNetwork.
    + destruct (respond_frame probe err networkVersion s)
        as (_ & ? & ? & ? & ? & ? & _).
      by apply wellFormed_frame with s.
Qed.

Lemma reachable_wellFormed s : reachable s → wellFormed s.
Proof.
  induction 1; [apply wellFormed_constructor|by apply wellFormed_perform].
Qed.
End Properties.


(** ** What a switching call does *)

Section Switching.
Context `{SharedNetwork}.

Lemma switch_outcome c s :
  isSwitch c = true → wellFormed s → SwitchOutcome c s.
Proof.
  intros Hc Hwf.
  destruct (perform_switch c s Hc Hwf)
    as [[e He]|(opts & current & previous & He & Hdom)].
  - by eapply switch_rejected.
  - pose proof (wellFormed_stored current previous s Hdom Hwf)
      as (Hl & Hd & _).
    destruct (knownType opts) eqn:Hk.
    + destruct (_switchNetwork_switched opts _ Hl Hd Hk)
        as (s' & provider & blockTracker & rest & Hs & Hsw).
      eapply switch_done; [|exact Hsw]. by rewrite He.
    + destruct (_switchNetwork_unknown opts _ Hl Hk) as (m & Hs).
      eapply switch_aborted. by rewrite He, Hs.
Qed.

Lemma during_rejected c s e : perform c s = (s, Throw e) → during c s = [].
Proof. intros He. unfold during, after. rewrite He. simpl. apply drop_all. Qed.

Lemma during_aborted c s current previous message :
  perform c s
  = (logged [Emitted NETWORK_WILL_CHANGE JsUndefined; NetworkPut loading]
       (set_networkStore loading (stored current previous s)),
     Throw (Error message)) →
  during c s = [Emitted NETWORK_WILL_CHANGE JsUndefined; NetworkPut loading].
Proof.
  intros He. unfold during, after. rewrite He. simpl. apply drop_app_length.
Qed.

Lemma during_done c s opts current previous s' provider blockTracker rest :
  perform c s = (s', Normal tt) →
  Switched opts (stored current previous s) s' provider blockTracker rest →
  during c s
  = [Emitted NETWORK_WILL_CHANGE JsUndefined; NetworkPut loading;
     Installed provider blockTracker;
     Emitted NETWORK_DID_CHANGE (field "type" opts);
     Called LookupNetworkListener] ++ rest.
Proof.
  intros He Hs. unfold during, after. rewrite He. simpl.
  rewrite (switched_effects _ _ _ _ _ _ Hs). simpl. apply drop_app_length.
Qed.

(** The request that a switching call sends was sent by the probe of that
    switch: on the connection the switch installed, with the status at
    ['loading']. *)
Lemma sentBy_switch c s probe :
  isSwitch c = true → wellFormed s → probe ∈ sentBy c s →
  initialNetwork probe = loading
  ∧ _provider (after (perform c) s) = Some (probe_provider probe)
  ∧ provider_ref (probe_provider probe) = S (nextRef s)
  ∧ nextRef s + 2 ≤ probe_ref probe < nextRef (after (perform c) s)
  ∧ pending (after (perform c) s) = pending s ++ [probe]
  ∧ networkStore (after (perform c) s) = loading.
Proof.
  intros Hc Hwf Hp. unfold sentBy in Hp.
  destruct (switch_outcome c s Hc Hwf)
    as [e He|current previous m He
       |opts current previous s' provider blockTracker rest He Hs].
  - rewrite (during_rejected _ _ _ He) in Hp. by apply elem_of_nil in Hp.
  - rewrite (during_aborted _ _ _ _ _ He) in Hp. by apply elem_of_nil in Hp.
  - rewrite (during_done _ _ _ _ _ _ _ _ _ He Hs) in Hp. simpl in Hp.
    unfold after. rewrite He. simpl.
    destruct Hs as [_ _ _ _ _ Hn Hpr _ (_ & _ & Hr) _ _ _ _ _ _ _ _ Hcases].
    simpl in *.
    destruct Hcases as [(_ & _ & m & ->)|(p & _ & <- & ? & ? & ? & ->)];
      simpl in Hp.
    + by apply elem_of_nil in Hp.
    + apply list_elem_of_singleton in Hp as ->. done.
Qed.

Lemma nextRef_switch c s :
  isSwitch c = true → wellFormed s →
  nextRef s ≤ nextRef (after (perform c) s)
  ∧ pending s ⊆ pending (after (perform c) s).
Proof.
  intros Hc Hwf.
  destruct (switch_outcome c s Hc Hwf)
    as [e He|current previous m He
       |opts current previous s' provider blockTracker rest He Hs];
    unfold after; rewrite He; simpl; [done..|].
  destruct Hs as [_ _ _ _ _ _ _ _ _ _ _ _ _ _ _ Hn Hq _]. simpl in *.
  split; [lia|done].
Qed.

Lemma rollbackToPreviousProvider_stores s :
  providerStore (after rollbackToPreviousProvider s)
  = spread (providerStore s) (previousProviderStore s)
  ∧ previousProviderStore (after rollbackToPreviousProvider s)
    = previousProviderStore s.
Proof.
  unfold after. rewrite rollbackToPreviousProvider_unfold.
  match goal with |- context [_switchNetwork ?o ?s1] =>
    destruct (_switchNetwork_calm o s1) as ([Hps Hpv _ _] & _) end.
  unfold after in Hps, Hpv. by rewrite Hps, Hpv.
Qed.

Lemma setProviderConfig_stores config s :
  providerStore (after (setProviderConfig config) s)
  = spread (providerStore s) config
  ∧ previousProviderStore (after (setProviderConfig config) s)
    = spread (previousProviderStore s) (providerStore s).
Proof.
  unfold after. rewrite setProviderConfig_unfold.
  match goal with |- context [_switchNetwork ?o ?s1] =>
    destruct (_switchNetwork_calm o s1) as ([Hps Hpv _ _] & _) end.
  unfold after in Hps, Hpv. by rewrite Hps, Hpv.
Qed.

(** The callback of a probe that saw ['loading'] does nothing once the status
    is something else. *)
Lemma respond_stale probe err networkVersion s :
  initialNetwork probe ≠ networkStore s →
  networkStore (after (respond probe err networkVersion) s) = networkStore s
  ∧ effects (after (respond probe err networkVersion) s) = effects s.
Proof.
  intros Hne. unfold after, respond, lookupNetwork_callback, getNetworkState.
  munfold. case_bool_decide; simpl; [|done].
  unfold strictEquals. by rewrite bool_decide_eq_false_2.
Qed.

(** The callback of a pending probe that saw the status that is still
    current writes the status. *)
Lemma respond_current probe err networkVersion s :
  probe ∈ pending s →
  initialNetwork probe = networkStore s →
  networkStore (after (respond probe err networkVersion) s)
  = (if truthy err then loading else networkVersion)
  ∧ pending (after (respond probe err networkVersion) s)
    = filter (λ p, p ≠ probe) (pending s).
Proof.
  intros Hin Heq. unfold after, respond, lookupNetwork_callback,
    getNetworkState, setNetworkState.
  munfold. rewrite bool_decide_eq_true_2 by done. simpl.
  unfold strictEquals. rewrite bool_decide_eq_true_2 by done.
  by destruct (truthy err).
Qed.

Lemma networkStore_perform c s :
  wellFormed s →
  networkStore (after (perform c) s) = networkStore s
  ∨ networkStore (after (perform c) s) = loading
  ∨ ∃ probe err networkVersion,
      c = Response probe err networkVersion ∧ truthy err = false
      ∧ networkStore (after (perform c) s) = networkVersion.
Proof.
  intros Hwf. destruct (isSwitch c) eqn:Hc.
  - destruct (switch_outcome c s Hc Hwf)
      as [e He|current previous m He
         |opts current previous s' provider blockTracker rest He Hs];
      unfold after; rewrite He; simpl; auto.
    right; left. apply Hs.
  - destruct c; try done; unfold perform.
    + left. unfold after, setInfuraProjectId. munfold.
      destruct projectId; try done. by destruct (truthy _).
    + unfold after, initializeProvider, getProviderConfig. munfold.
      set (s0 := set_baseProviderParams _ _).
      match goal with |- context [_configureProvider ?o s0] =>
        set (opts := o) end.
      destruct (knownType opts) eqn:Hk.
      * destruct (_configureProvider_calm opts s0) as (s1 & -> & _ & Hn1);
          [by apply clientFor_knownType|].
        destruct (lookupNetwork_looked s1) as (s2 & rest & -> & H2).
        unfold s0 in Hn1. simpl in Hn1.
        apply Looked_Calm in H2 as [_ _ _ [Hn2|Hn2]]; simpl;
          [left|right;left]; congruence.
      * destruct (_configureProvider_unknown opts s0) as (m & ->);
          [by apply clientFor_unknownType|]. by left.
    + unfold after, verifyNetwork, isNetworkLoading, getNetworkState. munfold.
      destruct (strictEquals _ _); [|by left].
      destruct (lookupNetwork_looked s) as (s2 & rest & -> & H2).
      apply Looked_Calm in H2 as [_ _ _ [Hn2|Hn2]]; simpl; auto.
    + unfold after.
      destruct (lookupNetwork_looked s) as (s2 & rest & -> & H2).
      apply Looked_Calm in H2 as [_ _ _ [Hn2|Hn2]]; simpl; auto.
    + unfold after, respond, lookupNetwork_callback, getNetworkState,
        setNetworkState. munfold.
      case_bool_decide; simpl; [|by left].
      destruct (strictEquals _ _); [|by left].
      destruct (truthy err) eqn:Herr; simpl; [by right; left|].
      right; right. eauto 10.
Qed.

Lemma run_snoc cs c s : run (cs ++ [c]) s = after (perform c) (run cs s).
Proof. unfold run. by rewrite foldl_app. Qed.

Lemma reachable_run cs s : reachable s → reachable (run cs s).
Proof.
  intros Hs. induction cs as [|c cs IH] using rev_ind; [done|].
  rewrite run_snoc. by apply reachable_perform.
Qed.

End Switching.


(** * The claims *)

Section Claims.
Context `{SharedNetwork}.

(** ** Validation *)

(** C2.  [setRpcTarget] called with a chainId string that fails
    [isPrefixedFormattedHexString], or whose [parseInt(chainId, 16)] fails
    [isSafeChainId], throws an [AssertionError] from the call itself, and the
    controller is left exactly as it was: the provider configuration, the
    previous configuration and the network status in particular. *)
Theorem setRpcTarget_rejects_invalid_chainId
    (s : NetworkController) (rpcUrl : JsValue) (chainId : string)
    (ticker nickname rpcPrefs : JsValue) :
  isPrefixedFormattedHexString (JsString chainId) = false
  ∨ isSafeChainId (parseInt16 (JsString chainId)) = false →
  let call := setRpcTarget rpcUrl (JsString chainId) ticker nickname rpcPrefs in
  (∃ message, completion call s = Throw (AssertionError message))
  ∧ after call s = s
  ∧ providerStore (after call s) = providerStore s
  ∧ previousProviderStore (after call s) = previousProviderStore s
  ∧ networkStore (after call s) = networkStore s.
Proof.
  intros Hbad call.
  assert (∃ message, call s = (s, Throw (AssertionError message)))
    as [message Hcall].
  { unfold call, setRpcTarget. munfold.
    destruct (isPrefixedFormattedHexString (JsString chainId)) eqn:Hhex;
      [|eauto].
    destruct Hbad as [?|Hsafe]; [done|]. rewrite Hsafe. eauto. }
  unfold completion, after. rewrite Hcall. simpl. eauto 10.
Qed.

(** C6.  [setProviderType] called with the type [NETWORK_TYPE_RPC], whatever
    the other arguments, or with a type that is not one of
    [INFURA_PROVIDER_TYPES], fails with an [AssertionError] (the promise it
    returns is rejected), and the controller is left exactly as it was. *)
Theorem setProviderType_rejects_unmanaged_type
    (s : NetworkController) (type : string) (rpcUrl ticker nickname : JsValue) :
  type = NETWORK_TYPE_RPC ∨ type ∉ INFURA_PROVIDER_TYPES →
  let call := setProviderType (JsString type) rpcUrl ticker nickname in
  (∃ message, completion call s = Normal (Rejected (AssertionError message)))
  ∧ after call s = s.
Proof.
  intros Hbad call.
  assert (∃ message,
            call s = (s, Normal (Rejected (AssertionError message))))
    as [message Hcall].
  { unfold call, setProviderType. munfold. unfold strictEquals, includes.
    case_bool_decide as Hrpc; [eauto|].
    destruct Hbad as [->|Hnot]; [done|].
    rewrite bool_decide_eq_false_2 by done. eauto. }
  unfold completion, after. rewrite Hcall. simpl. eauto.
Qed.

(** C5.  [setRpcTarget] called with a chainId string that passes
    [isPrefixedFormattedHexString] and whose [parseInt(chainId, 16)] passes
    [isSafeChainId] returns without throwing, and [getProviderConfig().chainId]
    is then the chainId that was passed. *)
Theorem setRpcTarget_accepts_valid_chainId
    (s : NetworkController) (rpcUrl : JsValue) (chainId : string)
    (ticker nickname rpcPrefs : JsValue) :
  isPrefixedFormattedHexString (JsString chainId) = true →
  isSafeChainId (parseInt16 (JsString chainId)) = true →
  let call := setRpcTarget rpcUrl (JsString chainId) ticker nickname rpcPrefs in
  completion call s = Normal tt
  ∧ ∃ config, completion getProviderConfig (after call s) = Normal config
              ∧ field "chainId" config = JsString chainId.
Proof.
  intros Hhex Hsafe call.
  set (config :=
         {[ "type" := JsString NETWORK_TYPE_RPC; "rpcUrl" := rpcUrl;
            "chainId" := JsString chainId;
            "ticker" := defaultParam (JsString "STC") ticker;
            "nickname" := defaultParam (JsString EmptyString) nickname;
            "rpcPrefs" := rpcPrefs ]} : JsRecord).
  assert (call s = setProviderConfig config s) as Hcall.
  { unfold call, setRpcTarget. munfold. by rewrite Hhex, Hsafe. }
  assert (knownType config = true) as Hk.
  { unfold knownType, strictEquals. apply orb_true_iff. right.
    by apply bool_decide_eq_true_2. }
  rewrite setProviderConfig_unfold in Hcall.
  match type of Hcall with _ = _switchNetwork _ ?s0 =>
    destruct (_switchNetwork_calm config s0) as ([Hps _ _ _] & _ & Hnormal)
  end.
  unfold completion, after in *. rewrite Hcall.
  split; [by apply Hnormal|].
  eexists. split; [reflexivity|]. rewrite Hps. simpl.
  unfold ObservableStore_updateState, spread, field.
  by rewrite (lookup_union_Some_l _ _ _ (JsString chainId)).
Qed.

(** ** History *)

(** C4, as the code has it.  [rollbackToPreviousProvider] merges the
    previous configuration over the current one: every key of the previous
    configuration takes its previous value, the other keys of the current
    configuration stay; the previous configuration itself is not written.
    Hence, after one switch made by [setProviderConfig(config)] on a
    configuration [current], a rollback gives [current] extended with the keys
    that only the previous configuration or [config] had: every key of
    [current] is back to its value. *)
Theorem rollback_merges_previous_config
    (s : NetworkController) (config : JsRecord) :
  let rolled := after rollbackToPreviousProvider s in
  let switched := after (setProviderConfig config) s in
  let back := after rollbackToPreviousProvider switched in
  providerStore rolled = spread (providerStore s) (previousProviderStore s)
  ∧ previousProviderStore rolled = previousProviderStore s
  ∧ previousProviderStore back = previousProviderStore switched
  ∧ providerStore back
    = spread (spread config (previousProviderStore s)) (providerStore s)
  ∧ providerStore s ⊆ providerStore back.
Proof.
  intros rolled switched back.
  pose proof rollbackToPreviousProvider_stores as Hroll.
  destruct (setProviderConfig_stores config s) as [Hcur Hprev].
  fold switched in Hcur, Hprev.
  destruct (Hroll s) as [Hr1 Hr2]. destruct (Hroll switched) as [Hb1 Hb2].
  fold rolled in Hr1, Hr2. fold back in Hb1, Hb2.
  assert (providerStore back
          = spread (spread config (previousProviderStore s)) (providerStore s))
    as Hback.
  { rewrite Hb1, Hcur, Hprev. unfold spread. apply map_eq. intros k.
    rewrite !lookup_union.
    destruct (providerStore s !! k), (previousProviderStore s !! k),
      (config !! k); done. }
  repeat split; try done.
  rewrite Hback. unfold spread. apply map_union_subseteq_l.
Qed.

(** C9.  [resetConnection] goes through [setProviderConfig]: on a controller
    it leaves the current configuration as it was and makes the previous
    configuration equal to it; a rollback made next re-applies the
    configuration that is already current, whatever the previous
    configuration was before the reset. *)
Theorem resetConnection_overwrites_previous_config (s : NetworkController) :
  reachable s →
  let reset := after resetConnection s in
  resetConnection s = setProviderConfig (providerStore s) s
  ∧ providerStore reset = providerStore s
  ∧ previousProviderStore reset = providerStore reset
  ∧ providerStore (after rollbackToPreviousProvider reset)
    = providerStore reset.
Proof.
  intros Hs reset. apply reachable_wellFormed in Hs as (_ & _ & Hdom).
  split; [done|].
  destruct (setProviderConfig_stores (providerStore s) s) as [Hcur Hprev].
  change (after (setProviderConfig (providerStore s)) s) with reset
    in Hcur, Hprev.
  rewrite spread_self in Hcur. rewrite spread_absorb in Hprev by done.
  split; [done|]. split; [congruence|].
  destruct (rollbackToPreviousProvider_stores reset) as (Hroll & _).
  rewrite Hroll, Hprev, Hcur. apply spread_self.
Qed.

(** ** Switching *)

(** C3.  After a switching call that succeeds (a setter, [resetConnection]
    or [rollbackToPreviousProvider]), the network status is ['loading'] when
    the call returns, whether or not proxies existed before; and if
    [getProviderAndBlockTracker()] returned two proxies before the call, it
    returns the same two proxies after it, each now forwarding to the
    provider and the block tracker that the switch created. *)
Theorem switch_resets_status_and_keeps_proxies
    (s : NetworkController) (c : Call) :
  reachable s →
  isSwitch c = true →
  completion (perform c) s = Normal tt →
  let s' := after (perform c) s in
  networkStore s' = loading
  ∧ ∀ provider blockTracker,
      completion getProviderAndBlockTracker s
      = Normal (Some provider, Some blockTracker) →
      completion getProviderAndBlockTracker s'
      = Normal (Some provider, Some blockTracker)
      ∧ ∃ newProvider newBlockTracker,
          _provider s' = Some newProvider
          ∧ _blockTracker s' = Some newBlockTracker
          ∧ proxyTarget s' !! provider = Some (provider_ref newProvider)
          ∧ proxyTarget s' !! blockTracker
            = Some (blockTracker_ref newBlockTracker)
          ∧ nextRef s ≤ blockTracker_ref newBlockTracker
          ∧ nextRef s ≤ provider_ref newProvider.
Proof.
  intros Hs Hc Hnormal s'. apply reachable_wellFormed in Hs.
  unfold completion in Hnormal. subst s'. unfold after.
  destruct (switch_outcome c s Hc Hs)
    as [e He|current previous m He
       |opts current previous s' newProvider newBlockTracker rest He Hsw];
    rewrite He in *; try done. simpl.
  destruct Hsw as [_ _ _ _ _ Hn Hpr Hbt (_ & _ & Hpref) (_ & Hbref)
                   Hpp Hbp _ (p & b & Hp' & Hb' & Htp & Htb) _ _ _ _].
  simpl in *. split; [done|].
  intros provider blockTracker Hproxies.
  unfold completion, getProviderAndBlockTracker in Hproxies.
  injection Hproxies as Hp Hb.
  rewrite (Hpp _ Hp) in Hp'. rewrite (Hbp _ Hb) in Hb'.
  injection Hp' as <-. injection Hb' as <-.
  split.
  - unfold completion, getProviderAndBlockTracker. munfold.
    by rewrite (Hpp _ Hp), (Hbp _ Hb).
  - exists newProvider, newBlockTracker. repeat split; try done; lia.
Qed.

(** C7.  The constructor registers [lookupNetwork] on [NETWORK_DID_CHANGE],
    and no other listener.  A switching call that returns has done, in this
    order: emit [NETWORK_WILL_CHANGE], put the status to ['loading'], install
    the new connection, emit [NETWORK_DID_CHANGE], call [lookupNetwork] from
    that event; [lookupNetwork] then sends its request through the new
    provider, or warns that there is no chainId.  A switching call that
    throws has stopped at the validation, before any of these, or at the
    unknown type, after the first two. *)
Theorem switch_order_of_events (s : NetworkController) (c : Call) :
  reachable s →
  isSwitch c = true →
  (∀ provider,
     listeners (constructor provider)
     = [(NETWORK_DID_CHANGE, LookupNetworkListener)])
  ∧ listeners s = [(NETWORK_DID_CHANGE, LookupNetworkListener)]
  ∧ match completion (perform c) s with
    | Normal _ =>
        ∃ provider blockTracker type rest,
          during c s
          = [Emitted NETWORK_WILL_CHANGE JsUndefined; NetworkPut loading;
             Installed provider blockTracker;
             Emitted NETWORK_DID_CHANGE type;
             Called LookupNetworkListener] ++ rest
          ∧ _provider (after (perform c) s) = Some provider
          ∧ ((∃ probe, rest = [Sent probe] ∧ probe_provider probe = provider
                       ∧ initialNetwork probe = loading)
             ∨ (∃ message, rest = [Warned message; NetworkPut loading]))
    | Throw _ =>
        during c s = []
        ∨ during c s
          = [Emitted NETWORK_WILL_CHANGE JsUndefined; NetworkPut loading]
    end.
Proof.
  intros Hs Hc. apply reachable_wellFormed in Hs.
  split; [done|]. split; [apply Hs|].
  destruct (switch_outcome c s Hc Hs)
    as [e He|current previous m He
       |opts current previous s' provider blockTracker rest He Hsw].
  - unfold completion. rewrite He. simpl. left. by eapply during_rejected.
  - unfold completion. rewrite He. simpl. right. by eapply during_aborted.
  - unfold completion, after. rewrite He. simpl.
    exists provider, blockTracker, (field "type" opts), rest.
    split; [by eapply during_done|].
    destruct Hsw as [_ _ _ _ _ _ Hpr _ _ _ _ _ _ _ _ _ _ Hcases].
    split; [done|].
    destruct Hcases as [(_ & _ & m & ->)|(p & _ & ? & ? & _ & _ & ->)]; eauto.
Qed.

(** ** The probe *)

(** C1.  Two switching calls are made one after the other, each sending its
    [chain.id] request.  The answer to the second request arrives and leaves
    the status different from ['loading'].  When the answer to the first
    request arrives after that, its callback finds the status it captured,
    ['loading'], different from the current one, and writes nothing: the
    status stays what it was, and no effect is recorded. *)
Theorem stale_probe_is_discarded
    (s : NetworkController) (c1 c2 : Call) (probe1 probe2 : Probe)
    (err1 networkVersion1 err2 networkVersion2 : JsValue) :
  let s1 := after (perform c1) s in
  let s2 := after (perform c2) s1 in
  let s3 := after (respond probe2 err2 networkVersion2) s2 in
  let s4 := after (respond probe1 err1 networkVersion1) s3 in
  reachable s →
  isSwitch c1 = true → isSwitch c2 = true →
  probe1 ∈ sentBy c1 s → probe2 ∈ sentBy c2 s1 →
  networkStore s3 ≠ loading →
  initialNetwork probe1 = loading
  ∧ strictEquals (initialNetwork probe1) (networkStore s3) = false
  ∧ networkStore s4 = networkStore s3
  ∧ effects s4 = effects s3.
Proof.
  intros s1 s2 s3 s4 Hs Hc1 Hc2 Hp1 _ Hn3.
  apply reachable_wellFormed in Hs.
  destruct (sentBy_switch c1 s probe1 Hc1 Hs Hp1) as (Hi1 & _).
  assert (initialNetwork probe1 ≠ networkStore s3) as Hne by congruence.
  split; [done|]. split; [by apply bool_decide_eq_false_2|].
  by apply respond_stale.
Qed.

(** C10.  The callback compares status values, not switches: two probes
    that captured the same status behave alike.  So when two switching calls
    are made one after the other, each sending its request while the status
    is ['loading'], and the answer to the first request, sent through the
    provider that the second switch replaced, arrives first with a version:
    that version is written to the status; and the answer to the second
    request, sent through the current provider, is then discarded. *)
Theorem superseded_probe_wins
    (s : NetworkController) (c1 c2 : Call) (probe1 probe2 : Probe)
    (networkVersion1 err2 networkVersion2 : JsValue) :
  let s1 := after (perform c1) s in
  let s2 := after (perform c2) s1 in
  let s3 := after (respond probe1 JsNull networkVersion1) s2 in
  let s4 := after (respond probe2 err2 networkVersion2) s3 in
  reachable s →
  isSwitch c1 = true → isSwitch c2 = true →
  probe1 ∈ sentBy c1 s → probe2 ∈ sentBy c2 s1 →
  networkVersion1 ≠ loading →
  (∀ p p' err networkVersion,
     initialNetwork p = initialNetwork p' →
     lookupNetwork_callback p err networkVersion
     = lookupNetwork_callback p' err networkVersion)
  ∧ initialNetwork probe1 = loading ∧ initialNetwork probe2 = loading
  ∧ _provider s2 = Some (probe_provider probe2)
  ∧ probe_provider probe1 ≠ probe_provider probe2
  ∧ networkStore s3 = networkVersion1
  ∧ networkStore s4 = networkVersion1
  ∧ effects s4 = effects s3.
Proof.
  intros s1 s2 s3 s4 Hs Hc1 Hc2 Hp1 Hp2 Hv1.
  apply reachable_wellFormed in Hs.
  assert (wellFormed s1) as Hs1 by by apply wellFormed_perform.
  destruct (sentBy_switch c1 s probe1 Hc1 Hs Hp1)
    as (Hi1 & _ & Hr1 & _ & Hq1 & _).
  destruct (sentBy_switch c2 s1 probe2 Hc2 Hs1 Hp2)
    as (Hi2 & Hpr2 & Hr2 & _ & _ & Hn2).
  fold s1 in Hq1. fold s2 in Hpr2, Hn2.
  destruct (nextRef_switch c1 s Hc1 Hs) as [Hnext1 _]. fold s1 in Hnext1.
  destruct (nextRef_switch c2 s1 Hc2 Hs1) as [_ Hsub]. fold s2 in Hsub.
  assert (probe1 ∈ pending s2) as Hin1.
  { apply Hsub. rewrite Hq1. apply elem_of_app. right. by left. }
  destruct (respond_current probe1 JsNull networkVersion1 s2 Hin1)
    as [Hn3 _]; [congruence|].
  fold s3 in Hn3. simpl in Hn3.
  split. { intros p p' err v Hpp. unfold lookupNetwork_callback. by rewrite Hpp. }
  split; [done|]. split; [done|]. split; [done|].
  split.
  { intros Hpp. rewrite Hpp in Hr1. rewrite Hr1 in Hr2.
    destruct (switch_outcome c1 s Hc1 Hs)
      as [e He|current previous m He
         |opts current previous s' provider blockTracker rest He Hsw].
    - unfold sentBy in Hp1. rewrite (during_rejected _ _ _ He) in Hp1.
      by apply elem_of_nil in Hp1.
    - unfold sentBy in Hp1. rewrite (during_aborted _ _ _ _ _ He) in Hp1.
      by apply elem_of_nil in Hp1.
    - pose proof (switched_nextRef _ _ _ _ _ _ Hsw) as Hnext.
      unfold s1, after in Hr2. rewrite He in Hr2. simpl in *. lia. }
  split; [done|].
  destruct (respond_stale probe2 err2 networkVersion2 s3) as [Hn4 He4];
    [rewrite Hi2, Hn3; congruence|].
  fold s4 in Hn4, He4. split; congruence.
Qed.

(** C8.  When the answer to a probe carries an error and the callback finds
    the status it captured still current, the callback returns normally and
    the status is ['loading'].  And through the whole life of a controller
    the status is ['loading'] or a version that came, without error, in the
    answer to a probe: there is no value for a failure. *)
Theorem probe_failure_is_loading
    (s : NetworkController) (probe : Probe) (err networkVersion : JsValue) :
  probe ∈ pending s →
  truthy err = true →
  strictEquals (initialNetwork probe) (networkStore s) = true →
  completion (respond probe err networkVersion) s = Normal tt
  ∧ networkStore (after (respond probe err networkVersion) s) = loading
  ∧ ∀ provider cs,
      networkStore (run cs (constructor provider)) = loading
      ∨ ∃ p e version,
          Response p e version ∈ cs ∧ truthy e = false
          ∧ networkStore (run cs (constructor provider)) = version.
Proof.
  intros Hin Herr Hguard. apply bool_decide_eq_true_1 in Hguard.
  split; [apply respond_frame|].
  destruct (respond_current probe err networkVersion s Hin Hguard) as [Hn _].
  rewrite Herr in Hn. split; [done|].
  intros provider cs. induction cs as [|c cs IH] using rev_ind; [by left|].
  rewrite run_snoc.
  assert (wellFormed (run cs (constructor provider))) as Hwf.
  { apply reachable_wellFormed, reachable_run, reachable_constructor. }
  destruct (networkStore_perform c _ Hwf)
    as [Hsame|[Hload|(p & e & v & -> & He & Hv)]].
  - rewrite Hsame. destruct IH as [?|(p & e & v & Hp & He & Hv)]; [by left|].
    right. exists p, e, v. split; [|done]. apply elem_of_app. by left.
  - by left.
  - right. exists p, e, v. split; [|done]. apply elem_of_app. right. by left.
Qed.

End Claims.


(** * The claims on the scenario *)

Module ScenarioFacts.
Import Scenario.
#[local] Existing Instance shared.

Lemma reachable_started : reachable started.
Proof.
  exact (reachable_perform _ (InitializeProvider (JsObject 0))
           (reachable_constructor None)).
Defined.

Lemma reachable_onLocalhost : reachable onLocalhost.
Proof. exact (reachable_perform _ toLocalhost reachable_started). Defined.

Example sentBy_toLocalhost : sentBy toLocalhost started = [localhostProbe].
Proof. vm_compute. reflexivity. Qed.

Example sentBy_rollback :
  sentBy RollbackToPreviousProvider onLocalhost = [mainAgainProbe].
Proof. vm_compute. reflexivity. Qed.

Example pending_backOnMain :
  pending backOnMain = [firstProbe; localhostProbe; mainAgainProbe].
Proof. vm_compute. reflexivity. Qed.

(** The scenario of the spec: on main, switch to the custom endpoint, the
    status is ['loading']; the endpoint answers 254, the status is that
    version; roll back, the type and the chainId are those of main again and
    the status is ['loading']. *)
Example scenario_of_the_spec :
  networkStore onLocalhost = loading
  ∧ networkStore
      (after (respond localhostProbe JsNull (JsString "254")) onLocalhost)
    = JsString "254"
  ∧ field "type" (providerStore backOnMain) = JsString "main"
  ∧ field "chainId" (providerStore backOnMain) = JsString "0x1"
  ∧ networkStore backOnMain = loading.
Proof. vm_compute. repeat split. Qed.

Lemma setRpcTarget_rejects_invalid_chainId_witness :
  isPrefixedFormattedHexString (JsString "fe") = false
  ∧ after (setRpcTarget (JsString "http://localhost:9850") (JsString "fe")
             JsUndefined JsUndefined JsUndefined) started
    = started.
Proof.
  split; [reflexivity|].
  apply (setRpcTarget_rejects_invalid_chainId started
           (JsString "http://localhost:9850") "fe"
           JsUndefined JsUndefined JsUndefined).
  left. reflexivity.
Defined.

Lemma setProviderType_rejects_unmanaged_type_witness :
  "customRpcSentinel" = NETWORK_TYPE_RPC
  ∧ after (setProviderType (JsString "customRpcSentinel") JsUndefined
             JsUndefined JsUndefined) started
    = started.
Proof.
  split; [reflexivity|].
  apply (setProviderType_rejects_unmanaged_type started "customRpcSentinel"
           JsUndefined JsUndefined JsUndefined).
  left. reflexivity.
Defined.

Lemma setRpcTarget_accepts_valid_chainId_witness :
  isPrefixedFormattedHexString (JsString "0xfe") = true
  ∧ isSafeChainId (parseInt16 (JsString "0xfe")) = true
  ∧ completion (perform toLocalhost) started = Normal tt.
Proof.
  split; [reflexivity|]. split; [reflexivity|].
  apply (setRpcTarget_accepts_valid_chainId started
           (JsString "http://localhost:9850") "0xfe"
           JsUndefined JsUndefined JsUndefined); reflexivity.
Defined.

(** C4 as it is stated fails on the spec's own scenario: after the switch
    from main to the custom endpoint, a rollback does not give back the
    configuration of main, nor the previous configuration that was retained:
    the [rpcUrl] of the custom endpoint stays. *)
Lemma rollback_does_not_restore_config :
  providerStore backOnMain ≠ providerStore started
  ∧ providerStore backOnMain ≠ previousProviderStore onLocalhost
  ∧ field "rpcUrl" (providerStore started) = JsUndefined
  ∧ field "rpcUrl" (providerStore backOnMain)
    = JsString "http://localhost:9850".
Proof.
  split; [|split; [|split]]; try (vm_compute; reflexivity).
  - intros Heq. apply (f_equal (field "rpcUrl")) in Heq.
    vm_compute in Heq. discriminate.
  - intros Heq. apply (f_equal (field "rpcUrl")) in Heq.
    vm_compute in Heq. discriminate.
Qed.

Lemma resetConnection_overwrites_previous_config_witness :
  reachable onLocalhost
  ∧ previousProviderStore onLocalhost ≠ providerStore onLocalhost
  ∧ previousProviderStore (after resetConnection onLocalhost)
    = providerStore (after resetConnection onLocalhost).
Proof.
  split; [exact reachable_onLocalhost|]. split.
  - intros Heq. apply (f_equal (field "type")) in Heq.
    vm_compute in Heq. discriminate.
  - apply (resetConnection_overwrites_previous_config onLocalhost
             reachable_onLocalhost).
Defined.

Lemma switch_resets_status_and_keeps_proxies_witness :
  (completion getProviderAndBlockTracker (constructor None)
   = Normal (None, None)
   ∧ networkStore (after (perform toLocalhost) (constructor None)) = loading)
  ∧ completion getProviderAndBlockTracker started = Normal (Some 2, Some 3)
  ∧ networkStore onLocalhost = loading
  ∧ completion getProviderAndBlockTracker onLocalhost
    = Normal (Some 2, Some 3).
Proof.
  split.
  - split; [reflexivity|].
    apply (switch_resets_status_and_keeps_proxies (constructor None)
             toLocalhost (reachable_constructor None)); vm_compute; reflexivity.
  - split; [reflexivity|].
    destruct (switch_resets_status_and_keeps_proxies started toLocalhost
                reachable_started eq_refl eq_refl) as (Hn & Hp).
    split; [exact Hn|]. exact (proj1 (Hp 2 3 eq_refl)).
Defined.

Lemma switch_order_of_events_witness :
  reachable onLocalhost
  ∧ listeners onLocalhost = [(NETWORK_DID_CHANGE, LookupNetworkListener)].
Proof.
  split; [exact reachable_onLocalhost|].
  apply (switch_order_of_events onLocalhost RollbackToPreviousProvider
           reachable_onLocalhost eq_refl).
Defined.

Lemma stale_probe_is_discarded_witness :
  networkStore
    (after (respond mainAgainProbe JsNull (JsString "1")) backOnMain)
  = JsString "1"
  ∧ networkStore
      (after (respond localhostProbe JsNull (JsString "254"))
         (after (respond mainAgainProbe JsNull (JsString "1")) backOnMain))
    = networkStore
        (after (respond mainAgainProbe JsNull (JsString "1")) backOnMain).
Proof.
  split; [vm_compute; reflexivity|].
  apply (stale_probe_is_discarded started toLocalhost
           RollbackToPreviousProvider localhostProbe mainAgainProbe
           JsNull (JsString "254") JsNull (JsString "1")
           reachable_started eq_refl eq_refl).
  - rewrite sentBy_toLocalhost. apply list_elem_of_here.
  - change (after (perform toLocalhost) started) with onLocalhost.
    rewrite sentBy_rollback. apply list_elem_of_here.
  - vm_compute. discriminate.
Defined.

Lemma superseded_probe_wins_witness :
  _provider backOnMain = Some mainAgainProvider
  ∧ networkStore
      (after (respond mainAgainProbe JsNull (JsString "1"))
         (after (respond localhostProbe JsNull (JsString "254")) backOnMain))
    = JsString "254".
Proof.
  split; [vm_compute; reflexivity|].
  apply (superseded_probe_wins started toLocalhost
           RollbackToPreviousProvider localhostProbe mainAgainProbe
           (JsString "254") JsNull (JsString "1")
           reachable_started eq_refl eq_refl).
  - rewrite sentBy_toLocalhost. apply list_elem_of_here.
  - change (after (perform toLocalhost) started) with onLocalhost.
    rewrite sentBy_rollback. apply list_elem_of_here.
  - discriminate.
Defined.

Lemma probe_failure_is_loading_witness :
  firstProbe ∈ pending started
  ∧ networkStore
      (after (respond firstProbe (JsObject 1) JsUndefined) started)
    = loading.
Proof.
  assert (firstProbe ∈ pending started) as Hin.
  { vm_compute. apply list_elem_of_here. }
  split; [exact Hin|].
  apply (probe_failure_is_loading started firstProbe (JsObject 1) JsUndefined
           Hin eq_refl eq_refl).
Defined.

End ScenarioFacts.
